(** * code-coffee: the search page of the price tracker (frontend/src/App.js)

    A shallow embedding of the [App] component: its four state variables,
    the five event handlers, the three backend calls and the way the
    state setters called by a handler are applied to the component state.

    The backend is not part of the repository: every handler that awaits
    a backend call takes the outcome of that call as an argument. *)

From Stdlib Require Import String List Arith Lia.
Import ListNotations.
Open Scope string_scope.

(** const URL = "http://localhost:5000"; *)
Definition URL : string := "http://localhost:5000".

(** What a rejected axios promise carries.  The handlers never inspect it:
    they only hand it to [console.error]. *)
Inductive BackendError : Type :=
| NetworkError
| HttpStatus (code : nat)
| MalformedResponse.

(** The outcome of an awaited axios call: the promise resolves with
    [response.data], or it rejects and [await] throws. *)
Inductive Response (A : Type) : Type :=
| Resolved (data : A)
| Rejected (err : BackendError).
Arguments Resolved {A} data.
Arguments Rejected {A} err.

(** Everything a handler does besides calling state setters, in the order
    in which it does it. *)
Inductive Effect : Type :=
| PreventDefault
| HttpGet (url : string)
| HttpPost (url : string) (search_text : string) (target : string)
| ConsoleError (msg : string) (err : BackendError)
| Alert (msg : string).

(** How a handler body ends: it returns, or an exception leaves it. *)
Inductive Completion (A : Type) : Type :=
| Normal (a : A)
| Throw (e : BackendError).
Arguments Normal {A} a.
Arguments Throw {A} e.

Section SearchPage.

(** A price history item.  Its shape is owned by the backend; the
    component passes it to the table untouched. *)
Context {Entry : Type}.

(** The four [useState] variables of [App]. *)
Record UIState : Type := mkUIState {
  showPriceHistory : bool;
  priceHistory : list Entry;
  searchTexts : list string;
  newSearchText : string
}.

(** useState(false), useState([]), useState([]), useState("") *)
Definition initial : UIState :=
  {| showPriceHistory := false;
     priceHistory := [];
     searchTexts := [];
     newSearchText := "" |}.

(** A call of one of the four state setters.  A setter does not change
    the variables the running handler sees: it queues an update, and the
    queue is applied when the handler's continuation has run. *)
Inductive Update : Type :=
| SetShowPriceHistory (b : bool)
| SetPriceHistory (h : list Entry)
| SetSearchTexts (l : list string)
| SetNewSearchText (t : string).

Definition apply_update (u : Update) (s : UIState) : UIState :=
  match u with
  | SetShowPriceHistory b =>
      {| showPriceHistory := b; priceHistory := priceHistory s;
         searchTexts := searchTexts s; newSearchText := newSearchText s |}
  | SetPriceHistory h =>
      {| showPriceHistory := showPriceHistory s; priceHistory := h;
         searchTexts := searchTexts s; newSearchText := newSearchText s |}
  | SetSearchTexts l =>
      {| showPriceHistory := showPriceHistory s; priceHistory := priceHistory s;
         searchTexts := l; newSearchText := newSearchText s |}
  | SetNewSearchText t =>
      {| showPriceHistory := showPriceHistory s; priceHistory := priceHistory s;
         searchTexts := searchTexts s; newSearchText := t |}
  end.

(** One state update of the component: the queued setter calls, applied
    in the order in which they were made. *)
Definition flush (us : list Update) (s : UIState) : UIState :=
  fold_left (fun acc u => apply_update u acc) us s.

(** What a running handler accumulates. *)
Record World : Type := mkWorld {
  pending : list Update;
  effects : list Effect
}.

Definition idle : World := {| pending := []; effects := [] |}.

(** Handler bodies: they queue updates, perform effects, and may throw. *)
Definition M (A : Type) : Type := World -> Completion A * World.

Definition ret {A} (a : A) : M A := fun w => (Normal a, w).

Definition bind {A B} (m : M A) (k : A -> M B) : M B :=
  fun w =>
    match m w with
    | (Normal a, w') => k a w'
    | (Throw e, w') => (Throw e, w')
    end.

(** try { body } catch (error) { handler(error) } *)
Definition try_catch {A} (body : M A) (handler : BackendError -> M A) : M A :=
  fun w =>
    match body w with
    | (Normal a, w') => (Normal a, w')
    | (Throw e, w') => handler e w'
    end.

Notation "x <- m ;; k" := (bind m (fun x => k))
  (at level 61, m at next level, right associativity).
Notation "m ;; k" := (bind m (fun _ => k))
  (at level 61, right associativity).

Definition emit (e : Effect) : M unit :=
  fun w => (Normal tt, {| pending := pending w; effects := effects w ++ [e] |}).

Definition enqueue (u : Update) : M unit :=
  fun w => (Normal tt, {| pending := pending w ++ [u]; effects := effects w |}).

Definition await {A} (r : Response A) : M A :=
  fun w =>
    match r with
    | Resolved d => (Normal d, w)
    | Rejected e => (Throw e, w)
    end.

(** await axios.get(url), then [.data] of the response *)
Definition axios_get {A} (url : string) (backend : Response A) : M A :=
  emit (HttpGet url) ;; await backend.

(** await axios.post(url, { search_text, url: target }) *)
Definition axios_post (url search_text target : string)
    (backend : Response unit) : M unit :=
  emit (HttpPost url search_text target) ;; await backend.

Definition console_error (msg : string) (err : BackendError) : M unit :=
  emit (ConsoleError msg err).

(** window.alert shows its first argument only. *)
Definition alert (msg : string) : M unit := emit (Alert msg).

Definition preventDefault : M unit := emit PreventDefault.

Definition setShowPriceHistory (b : bool) : M unit :=
  enqueue (SetShowPriceHistory b).
Definition setPriceHistory (h : list Entry) : M unit :=
  enqueue (SetPriceHistory h).
Definition setSearchTexts (l : list string) : M unit :=
  enqueue (SetSearchTexts l).
Definition setNewSearchText (t : string) : M unit :=
  enqueue (SetNewSearchText t).

(** ** The handlers of App.js *)

(** App.js 51-59 *)
Definition fetchUniqueSearchTexts (backend : Response (list string)) : M unit :=
  try_catch
    (data <- axios_get (URL ++ "/unique_search_texts") backend ;;
     setSearchTexts data)
    (fun error => console_error "Error fetching unique search texts:" error).

(** App.js 61-73 *)
Definition handleSearchTextClick (searchText : string)
    (backend : Response (list Entry)) : M unit :=
  try_catch
    (data <- axios_get (URL ++ "/results?search_text=" ++ searchText) backend ;;
     setPriceHistory data ;;
     setShowPriceHistory true)
    (fun error => console_error "Error fetching price history:" error).

(** App.js 75-78 *)
Definition handlePriceHistoryClose : M unit :=
  setShowPriceHistory false ;;
  setPriceHistory [].

(** App.js 80-82; [value] is event.target.value *)
Definition handleNewSearchTextChange (value : string) : M unit :=
  setNewSearchText value.

(** App.js 84-99.  [searchTexts] and [newSearchText] in the body are the
    variables of the render in which the handler was created: [render]. *)
Definition handleNewSearchTextSubmit (render : UIState)
    (backend : Response unit) : M unit :=
  preventDefault ;;
  try_catch
    (axios_post (URL ++ "/start-scraper") (newSearchText render)
       "https://amazon.ca" backend ;;
     alert "Scraper started successfully" ;;
     setSearchTexts (searchTexts render ++ [newSearchText render]) ;;
     setNewSearchText "")
    (fun error => alert "Error starting scraper:").

(** ** The five operations of the page *)

Inductive Op : Type :=
| LoadSearchTerms (backend : Response (list string))
| SelectSearchTerm (term : string) (backend : Response (list Entry))
| ClosePriceHistory
| EditNewSearchText (value : string)
| SubmitNewSearchText (backend : Response unit).

(** The handler an operation runs, in the render [render]. *)
Definition handler_of (render : UIState) (op : Op) : M unit :=
  match op with
  | LoadSearchTerms backend => fetchUniqueSearchTexts backend
  | SelectSearchTerm term backend => handleSearchTextClick term backend
  | ClosePriceHistory => handlePriceHistoryClose
  | EditNewSearchText value => handleNewSearchTextChange value
  | SubmitNewSearchText backend => handleNewSearchTextSubmit render backend
  end.

(** How the handler ends, the setter calls it queued and its effects. *)
Definition completion (render : UIState) (op : Op) : Completion unit :=
  fst (handler_of render op idle).
Definition updates (render : UIState) (op : Op) : list Update :=
  pending (snd (handler_of render op idle)).
Definition trace (render : UIState) (op : Op) : list Effect :=
  effects (snd (handler_of render op idle)).

(** The state after a handler created in [render] has run, when the
    component state was [cur] at the time its updates are applied. *)
Definition settle (render cur : UIState) (op : Op) : UIState :=
  flush (updates render op) cur.

(** An operation that starts and ends with no other one in between. *)
Definition step (s : UIState) (op : Op) : UIState := settle s s op.

(** A sequence of operations, one after the other. *)
Definition run (ops : list Op) (s : UIState) : UIState :=
  fold_left step ops s.

(** A state the page can be in after some sequence of operations. *)
Definition reachable (s : UIState) : Prop :=
  exists ops, run ops initial = s.

(** The history panel: [{showPriceHistory && <PriceHistoryTable .../>}]. *)
Inductive Panel : Type := Closed | Open.

Definition panel (s : UIState) : Panel :=
  if showPriceHistory s then Open else Closed.

(** The payload an operation fetched, when it is a successful history
    fetch. *)
Definition fetched (op : Op) : option (list Entry) :=
  match op with
  | SelectSearchTerm _ (Resolved data) => Some data
  | _ => None
  end.

(** The payload of the most recent successful history fetch of a
    sequence of operations (the head of the list is the oldest). *)
Fixpoint latest_fetch (ops : list Op) : option (list Entry) :=
  match ops with
  | [] => None
  | op :: rest =>
      match latest_fetch rest with
      | Some data => Some data
      | None => fetched op
      end
  end.

(** Is an operation one whose backend call failed? *)
Definition failed (op : Op) : bool :=
  match op with
  | LoadSearchTerms (Rejected _) => true
  | SelectSearchTerm _ (Rejected _) => true
  | SubmitNewSearchText (Rejected _) => true
  | _ => false
  end.

(** What a failed operation leaves behind, besides the request itself. *)
Definition diagnostic (op : Op) : list Effect :=
  match op with
  | LoadSearchTerms (Rejected e) =>
      [ConsoleError "Error fetching unique search texts:" e]
  | SelectSearchTerm _ (Rejected e) =>
      [ConsoleError "Error fetching price history:" e]
  | SubmitNewSearchText (Rejected _) =>
      [Alert "Error starting scraper:"]
  | _ => []
  end.

(** ** Requests in flight *)

(** Does the handler of an operation await the backend?  Such a handler
    runs up to its [await] when the event fires and calls its setters
    only when the answer lands; the two others are synchronous. *)
Definition awaits (op : Op) : bool :=
  match op with
  | LoadSearchTerms _ => true
  | SelectSearchTerm _ _ => true
  | SubmitNewSearchText _ => true
  | ClosePriceHistory => false
  | EditNewSearchText _ => false
  end.

(** A handler suspended at its [await]: the render whose variables it
    closed over, and its operation, with the answer the backend is going
    to give. *)
Record Suspended : Type := mkSuspended {
  closure : UIState;
  waiting : Op
}.

(** The page between two tasks of the event loop: the component state,
    the suspended handlers, and the operations whose setter calls were
    applied so far, the oldest first. *)
Record Page : Type := mkPage {
  ui : UIState;
  inflight : list Suspended;
  landed : list Op
}.

(** The page with the state [s] and nothing in flight. *)
Definition at_rest (s : UIState) : Page :=
  {| ui := s; inflight := []; landed := [] |}.

(** The page when [App] has rendered for the first time. *)
Definition mounted : Page := at_rest initial.

(** A task of the event loop: an event fires and its handler starts in
    the current render, or the answer to the [i]-th request in flight
    lands and its handler resumes. *)
Inductive Event : Type :=
| Fire (op : Op)
| Land (i : nat).

(** useEffect(() => { fetchUniqueSearchTexts(); }, []) *)
Definition mount (backend : Response (list string)) : Event :=
  Fire (LoadSearchTerms backend).

Definition async_step (p : Page) (ev : Event) : Page :=
  match ev with
  | Fire op =>
      if awaits op then
        {| ui := ui p;
           inflight := inflight p ++ [{| closure := ui p; waiting := op |}];
           landed := landed p |}
      else
        {| ui := settle (ui p) (ui p) op;
           inflight := inflight p;
           landed := landed p ++ [op] |}
  | Land i =>
      match nth_error (inflight p) i with
      | Some k =>
          {| ui := settle (closure k) (ui p) (waiting k);
             inflight := firstn i (inflight p) ++ skipn (S i) (inflight p);
             landed := landed p ++ [waiting k] |}
      | None => p
      end
  end.

Definition async_run (evs : list Event) (p : Page) : Page :=
  fold_left async_step evs p.

(** A task that leaves the request at position [n] in flight, at that
    position: any event firing, or a later request landing. *)
Definition spares (n : nat) (ev : Event) : bool :=
  match ev with
  | Fire _ => true
  | Land i => Nat.ltb n i
  end.

(** The tasks of operations done one at a time: each request lands
    before the next event fires. *)
Definition serial (ops : list Op) : list Event :=
  flat_map (fun op => if awaits op then [Fire op; Land 0] else [Fire op]) ops.

(** Two states with the same panel fields and the same input. *)
Definition same_but_list (s1 s2 : UIState) : Prop :=
  showPriceHistory s1 = showPriceHistory s2 /\
  priceHistory s1 = priceHistory s2 /\
  newSearchText s1 = newSearchText s2.

(** ** What the handlers leave in the log *)

Definition is_request (e : Effect) : bool :=
  match e with
  | HttpGet _ => true
  | HttpPost _ _ _ => true
  | _ => false
  end.

Definition is_alert (e : Effect) : bool :=
  match e with
  | Alert _ => true
  | _ => false
  end.

Definition is_console_error (e : Effect) : bool :=
  match e with
  | ConsoleError _ _ => true
  | _ => false
  end.

Definition is_submit (op : Op) : bool :=
  match op with
  | SubmitNewSearchText _ => true
  | _ => false
  end.

(** The operations that can write each part of the state. *)
Definition writes_list (op : Op) : bool :=
  match op with
  | LoadSearchTerms (Resolved _) => true
  | SubmitNewSearchText (Resolved _) => true
  | _ => false
  end.

Definition writes_input (op : Op) : bool :=
  match op with
  | EditNewSearchText _ => true
  | SubmitNewSearchText (Resolved _) => true
  | _ => false
  end.

Definition writes_panel (op : Op) : bool :=
  match op with
  | SelectSearchTerm _ (Resolved _) => true
  | ClosePriceHistory => true
  | _ => false
  end.

Definition load_ok (op : Op) : bool :=
  match op with
  | LoadSearchTerms (Resolved _) => true
  | _ => false
  end.

Definition submit_ok (op : Op) : bool :=
  match op with
  | SubmitNewSearchText (Resolved _) => true
  | _ => false
  end.

(** The operations of the history panel, as opposed to those of the
    search form and the list. *)
Definition panel_op (op : Op) : bool :=
  match op with
  | SelectSearchTerm _ _ => true
  | ClosePriceHistory => true
  | _ => false
  end.

(** ** What [App] renders (App.js 101-125) *)

(** The handler bound to a prop of an element. *)
Inductive Callback : Type :=
| CbSearchTextClick
| CbPriceHistoryClose
| CbNewSearchTextChange
| CbNewSearchTextSubmit.

(** The elements of the returned tree, with the props [App] gives them.
    The three components are imported: only their props are known. *)
#[local] Unset Elimination Schemes.
Inductive Element : Type :=
| div (className : string) (children : list Element)
| h1 (text : string)
| form (onSubmit : Callback) (children : list Element)
| label (text : string)
| input (type value : string) (onChange : Callback)
| button (type text : string)
| SearchTextList (items : list string) (onSearchTextClick : Callback)
| TrackedProductList
| PriceHistoryTable (history : list Entry) (onClose : Callback).
#[local] Set Elimination Schemes.

(** [{showPriceHistory && (<PriceHistoryTable ... />)}]: [false] renders
    nothing. *)
Definition view (s : UIState) : Element :=
  div "main"
    ([h1 "Product Search Tool";
      form CbNewSearchTextSubmit
        [label "Search for a new item:";
         input "text" (newSearchText s) CbNewSearchTextChange;
         button "submit" "Start Scraper"];
      SearchTextList (searchTexts s) CbSearchTextClick;
      TrackedProductList]
     ++ (if showPriceHistory s
         then [PriceHistoryTable (priceHistory s) CbPriceHistoryClose]
         else [])).

(** ** What each operation does to the state *)

Ltac by_cases op :=
  destruct op as [[?|?]|? [?|?]| | |[?|?]]; try discriminate; try reflexivity.

Lemma settle_load_ok (render cur : UIState) (data : list string) :
  settle render cur (LoadSearchTerms (Resolved data)) =
  {| showPriceHistory := showPriceHistory cur;
     priceHistory := priceHistory cur;
     searchTexts := data;
     newSearchText := newSearchText cur |}.
Proof. reflexivity. Qed.

Lemma settle_select_ok (render cur : UIState) (term : string)
    (data : list Entry) :
  settle render cur (SelectSearchTerm term (Resolved data)) =
  {| showPriceHistory := true;
     priceHistory := data;
     searchTexts := searchTexts cur;
     newSearchText := newSearchText cur |}.
Proof. reflexivity. Qed.

Lemma settle_close (render cur : UIState) :
  settle render cur ClosePriceHistory =
  {| showPriceHistory := false;
     priceHistory := [];
     searchTexts := searchTexts cur;
     newSearchText := newSearchText cur |}.
Proof. reflexivity. Qed.

Lemma settle_edit (render cur : UIState) (value : string) :
  settle render cur (EditNewSearchText value) =
  {| showPriceHistory := showPriceHistory cur;
     priceHistory := priceHistory cur;
     searchTexts := searchTexts cur;
     newSearchText := value |}.
Proof. reflexivity. Qed.

Lemma settle_submit_ok (render cur : UIState) (u : unit) :
  settle render cur (SubmitNewSearchText (Resolved u)) =
  {| showPriceHistory := showPriceHistory cur;
     priceHistory := priceHistory cur;
     searchTexts := searchTexts render ++ [newSearchText render];
     newSearchText := "" |}.
Proof. reflexivity. Qed.

(** A failed backend call queues no setter call at all. *)
Lemma failed_updates (render : UIState) (op : Op) :
  failed op = true -> updates render op = [].
Proof. by_cases op. Qed.

Lemma failed_settle (render cur : UIState) (op : Op) :
  failed op = true -> settle render cur op = cur.
Proof.
  intros H. unfold settle. rewrite (failed_updates render op H). reflexivity.
Qed.

(** No handler lets an exception out. *)
Lemma completion_normal (render : UIState) (op : Op) :
  completion render op = Normal tt.
Proof. by_cases op. Qed.

(** Rewrites every settled operation of the goal to the state it gives. *)
Ltac settled :=
  rewrite ?settle_load_ok, ?settle_select_ok, ?settle_close, ?settle_edit,
    ?settle_submit_ok, ?failed_settle by reflexivity.

Lemma run_snoc (ops : list Op) (op : Op) (s : UIState) :
  run (ops ++ [op]) s = step (run ops s) op.
Proof. unfold run. rewrite fold_left_app. reflexivity. Qed.

Lemma latest_fetch_snoc (ops : list Op) (op : Op) :
  latest_fetch (ops ++ [op]) =
  match fetched op with
  | Some data => Some data
  | None => latest_fetch ops
  end.
Proof.
  induction ops as [|o ops IH]; simpl.
  - destruct (fetched op); reflexivity.
  - rewrite IH. destruct (fetched op); [reflexivity|].
    destruct (latest_fetch ops); reflexivity.
Qed.

(** The invariant of the history panel along a run: a closed panel holds
    no history, an open one holds the latest fetched payload. *)
Definition history_inv (ops : list Op) (s : UIState) : Prop :=
  (showPriceHistory s = false -> priceHistory s = []) /\
  (showPriceHistory s = true -> latest_fetch ops = Some (priceHistory s)).

Lemma history_inv_initial : history_inv [] initial.
Proof. split; [reflexivity | discriminate]. Qed.

Lemma history_inv_step (ops : list Op) (op : Op) (s : UIState) :
  history_inv ops s -> history_inv (ops ++ [op]) (step s op).
Proof.
  intros [Hc Ho]. unfold history_inv, step.
  rewrite latest_fetch_snoc.
  destruct op as [[?|?]|? [?|?]| | |[[]|?]]; simpl fetched;
    settled; simpl; split; intros H; try discriminate; try reflexivity; auto.
Qed.

Lemma history_inv_run (ops : list Op) : history_inv ops (run ops initial).
Proof.
  induction ops as [|op ops IH] using rev_ind.
  - exact history_inv_initial.
  - rewrite run_snoc. apply history_inv_step, IH.
Qed.

(** ** The properties of the page *)

(** C1: from every state, a submission whose backend call succeeds clears
    [newSearchText] and leaves [searchTexts] as the list before the
    submission followed by the text before the submission: one element
    more, the earlier elements in place; the panel fields are not
    touched. *)
Theorem submit_success_appends (s : UIState) (u : unit) :
  let s' := step s (SubmitNewSearchText (Resolved u)) in
  newSearchText s' = "" /\
  searchTexts s' = (searchTexts s ++ [newSearchText s])%list /\
  length (searchTexts s') = S (length (searchTexts s)) /\
  (forall i, i < length (searchTexts s) ->
     nth_error (searchTexts s') i = nth_error (searchTexts s) i) /\
  nth_error (searchTexts s') (length (searchTexts s)) = Some (newSearchText s) /\
  showPriceHistory s' = showPriceHistory s /\
  priceHistory s' = priceHistory s.
Proof.
  unfold step. rewrite settle_submit_ok. simpl.
  repeat split.
  - rewrite length_app. simpl. lia.
  - intros i Hi. apply nth_error_app1, Hi.
  - rewrite nth_error_app2 by lia. rewrite Nat.sub_diag. reflexivity.
Qed.

(** C2: from every state, a submission whose backend call fails leaves
    the whole state, so [searchTexts] and [newSearchText], as it was
    before the submission; the handler only shows the error alert. *)
Theorem submit_failure_unchanged (s : UIState) (e : BackendError) :
  let s' := step s (SubmitNewSearchText (Rejected e)) in
  searchTexts s' = searchTexts s /\
  newSearchText s' = newSearchText s /\
  s' = s /\
  updates s (SubmitNewSearchText (Rejected e)) = [] /\
  trace s (SubmitNewSearchText (Rejected e)) =
    [PreventDefault;
     HttpPost (URL ++ "/start-scraper") (newSearchText s) "https://amazon.ca";
     Alert "Error starting scraper:"].
Proof.
  unfold step. rewrite failed_settle by reflexivity.
  repeat split; reflexivity.
Qed.

(** C3: from every state and for every term, a selection whose backend
    call succeeds queues the two setter calls, the payload for
    [priceHistory] and [true] for [showPriceHistory], which one state
    update applies together, the other two fields kept; a selection whose
    backend call fails queues nothing, leaves the state as it was and the
    panel as it was. *)
Theorem select_success_opens_failure_unchanged (s : UIState) (term : string) :
  (forall data,
     updates s (SelectSearchTerm term (Resolved data)) =
       [SetPriceHistory data; SetShowPriceHistory true] /\
     step s (SelectSearchTerm term (Resolved data)) =
       {| showPriceHistory := true;
          priceHistory := data;
          searchTexts := searchTexts s;
          newSearchText := newSearchText s |}) /\
  (forall e,
     updates s (SelectSearchTerm term (Rejected e)) = [] /\
     step s (SelectSearchTerm term (Rejected e)) = s /\
     panel (step s (SelectSearchTerm term (Rejected e))) = panel s /\
     trace s (SelectSearchTerm term (Rejected e)) =
       [HttpGet (URL ++ "/results?search_text=" ++ term);
        ConsoleError "Error fetching price history:" e]).
Proof.
  split.
  - intros data. split; reflexivity.
  - intros e. unfold step. rewrite failed_settle by reflexivity.
    repeat split; reflexivity.
Qed.

(** C4: from every state, closing the panel gives
    [showPriceHistory = false] and [priceHistory = []], keeps the other
    two fields, performs no request or other effect and cannot fail. *)
Theorem close_resets_history (s : UIState) :
  let s' := step s ClosePriceHistory in
  showPriceHistory s' = false /\
  priceHistory s' = [] /\
  searchTexts s' = searchTexts s /\
  newSearchText s' = newSearchText s /\
  trace s ClosePriceHistory = [] /\
  completion s ClosePriceHistory = Normal tt.
Proof. repeat split; reflexivity. Qed.

(** C5: from every state, a load whose backend call succeeds replaces
    [searchTexts] by the returned list as it is (same elements, same
    order) and keeps the other fields; a load whose backend call fails
    leaves the state as it was, so [searchTexts] is still empty when the
    failed load is the first one. *)
Theorem load_replaces_or_keeps (s : UIState) :
  (forall data,
     step s (LoadSearchTerms (Resolved data)) =
       {| showPriceHistory := showPriceHistory s;
          priceHistory := priceHistory s;
          searchTexts := data;
          newSearchText := newSearchText s |}) /\
  (forall e,
     step s (LoadSearchTerms (Rejected e)) = s /\
     searchTexts (step s (LoadSearchTerms (Rejected e))) = searchTexts s /\
     trace s (LoadSearchTerms (Rejected e)) =
       [HttpGet (URL ++ "/unique_search_texts");
        ConsoleError "Error fetching unique search texts:" e]) /\
  (forall e, searchTexts (step initial (LoadSearchTerms (Rejected e))) = []).
Proof.
  repeat split; try reflexivity.
Qed.

(** C6: the history panel moves as the state machine says.  A successful
    selection ends in Open from Closed and from Open, with the payload as
    [priceHistory]; closing ends in Closed; a failed selection changes
    nothing; and whenever an operation changes the panel, it is a
    successful selection from Closed or a close from Open. *)
Theorem panel_state_machine (s : UIState) :
  (forall term data,
     panel (step s (SelectSearchTerm term (Resolved data))) = Open /\
     priceHistory (step s (SelectSearchTerm term (Resolved data))) = data) /\
  panel (step s ClosePriceHistory) = Closed /\
  (forall term e, step s (SelectSearchTerm term (Rejected e)) = s) /\
  (forall op, panel (step s op) <> panel s ->
     (panel s = Closed /\ panel (step s op) = Open /\
      exists term data, op = SelectSearchTerm term (Resolved data)) \/
     (panel s = Open /\ panel (step s op) = Closed /\
      op = ClosePriceHistory)).
Proof.
  repeat split.
  intros op Hne.
  unfold step, panel in *.
  destruct op as [[?|?]|term [data|?]| | |[[]|?]];
    revert Hne; settled; simpl; intros Hne;
    try (exfalso; apply Hne; reflexivity).
  - left. destruct (showPriceHistory s); [exfalso; apply Hne; reflexivity|].
    repeat split. exists term, data. reflexivity.
  - right. destruct (showPriceHistory s); [|exfalso; apply Hne; reflexivity].
    repeat split.
Qed.

(** C7: after every sequence of operations from the initial state, an
    open panel holds exactly the payload of the most recent successful
    history fetch, a closed panel holds no history (no state with
    [showPriceHistory = false] and a non-empty [priceHistory] is
    reached), and closing from there queues both setter calls for one
    state update, which leaves [false] and [[]]. *)
Theorem history_invariant (ops : list Op) :
  let s := run ops initial in
  (showPriceHistory s = true -> latest_fetch ops = Some (priceHistory s)) /\
  (showPriceHistory s = false -> priceHistory s = []) /\
  ~ (showPriceHistory s = false /\ priceHistory s <> []) /\
  (updates s ClosePriceHistory =
     [SetShowPriceHistory false; SetPriceHistory []] /\
   showPriceHistory (step s ClosePriceHistory) = false /\
   priceHistory (step s ClosePriceHistory) = []).
Proof.
  destruct (history_inv_run ops) as [Hc Ho]. simpl.
  repeat split; auto.
  intros [Hf Hne]. apply Hne, Hc, Hf.
Qed.

(** C8: no de-duplication.  In a state whose [searchTexts] already
    contains the text [t] typed in the input, a successful submission
    appends [t] once more, so [t] occurs one more time than before, at
    least twice; and typing and submitting the same [t] twice in a row
    ends with two entries [t] at the end of the list. *)
Theorem submit_no_dedup (s : UIState) (t : string) (u : unit) :
  In t (searchTexts s) ->
  newSearchText s = t ->
  let ok := SubmitNewSearchText (Resolved u) in
  searchTexts (step s ok) = (searchTexts s ++ [t])%list /\
  count_occ string_dec (searchTexts (step s ok)) t =
    S (count_occ string_dec (searchTexts s) t) /\
  2 <= count_occ string_dec (searchTexts (step s ok)) t /\
  searchTexts (run [ok; EditNewSearchText t; ok] s) = (searchTexts s ++ [t; t])%list.
Proof.
  intros Hin Ht ok. subst ok.
  unfold run, step. cbn [fold_left].
  settled. cbn [searchTexts newSearchText]. rewrite Ht.
  assert (Hc : count_occ string_dec ((searchTexts s ++ [t])%list) t =
               S (count_occ string_dec (searchTexts s) t)).
  { rewrite count_occ_app. simpl. destruct (string_dec t t); [lia|congruence]. }
  repeat split.
  - exact Hc.
  - rewrite Hc. apply (count_occ_In string_dec) in Hin. lia.
  - rewrite <- app_assoc. reflexivity.
Qed.

(** C9: no handler lets an exception out, whatever the backend answers;
    an operation whose backend call failed queues no setter call and
    leaves every field of the state as it was, also a state that other
    operations changed while the call was in flight; and what it leaves
    behind is the request followed by its diagnostic: a console error
    for a load and for a selection, the error alert for a submission. *)
Theorem failures_caught_and_isolated :
  (forall render op, completion render op = Normal tt) /\
  (forall render cur op, failed op = true ->
     updates render op = [] /\ settle render cur op = cur) /\
  (forall render e,
     trace render (LoadSearchTerms (Rejected e)) =
       HttpGet (URL ++ "/unique_search_texts")
       :: diagnostic (LoadSearchTerms (Rejected e))) /\
  (forall render term e,
     trace render (SelectSearchTerm term (Rejected e)) =
       HttpGet (URL ++ "/results?search_text=" ++ term)
       :: diagnostic (SelectSearchTerm term (Rejected e))) /\
  (forall render e,
     trace render (SubmitNewSearchText (Rejected e)) =
       PreventDefault
       :: HttpPost (URL ++ "/start-scraper") (newSearchText render)
            "https://amazon.ca"
       :: diagnostic (SubmitNewSearchText (Rejected e))).
Proof.
  split; [exact completion_normal|].
  split; [|repeat split].
  intros render cur op H. split.
  - apply failed_updates, H.
  - apply failed_settle, H.
Qed.

(** C10: a successful selection whose payload is empty still opens the
    panel, with [priceHistory = []]; so an open panel with no history is
    a reachable state. *)
Theorem empty_history_opens_panel :
  (forall s term,
     let s' := step s (SelectSearchTerm term (Resolved [])) in
     showPriceHistory s' = true /\ priceHistory s' = [] /\ panel s' = Open) /\
  (exists s, reachable s /\ showPriceHistory s = true /\ priceHistory s = []).
Proof.
  split.
  - intros s term. repeat split.
  - exists (run [SelectSearchTerm "kettle" (Resolved [])] initial).
    split; [eexists; reflexivity|]. split; reflexivity.
Qed.

(** ** Beyond the five operations one by one *)

(** The text the user typed is the text the submission posts, whatever
    the backend answers, in one request to the scraper for amazon.ca; an
    accepted submission appends that text and empties the input; and of
    two edits in a row the last one stays. *)
Theorem typed_text_is_submitted (s : UIState) (v : string) :
  (forall r,
     trace (step s (EditNewSearchText v)) (SubmitNewSearchText r) =
       PreventDefault
       :: HttpPost (URL ++ "/start-scraper") v "https://amazon.ca"
       :: match r with
          | Resolved _ => [Alert "Scraper started successfully"]
          | Rejected _ => [Alert "Error starting scraper:"]
          end) /\
  (forall u,
     run [EditNewSearchText v; SubmitNewSearchText (Resolved u)] s =
       {| showPriceHistory := showPriceHistory s;
          priceHistory := priceHistory s;
          searchTexts := searchTexts s ++ [v];
          newSearchText := "" |}) /\
  (forall a,
     run [EditNewSearchText a; EditNewSearchText v] s =
     run [EditNewSearchText v] s).
Proof.
  split; [|split].
  - intros [u|e]; reflexivity.
  - intros u. reflexivity.
  - intros a. reflexivity.
Qed.

(** Each part of the state has its writers: the list is written only by
    an accepted load or submission, the input only by an edit or an
    accepted submission, the two panel fields only by an accepted
    selection or a close; this holds for a handler of any render landing
    on any state. *)
Theorem writers_of_each_field (render cur : UIState) (op : Op) :
  (writes_list op = false ->
     searchTexts (settle render cur op) = searchTexts cur) /\
  (writes_input op = false ->
     newSearchText (settle render cur op) = newSearchText cur) /\
  (writes_panel op = false ->
     showPriceHistory (settle render cur op) = showPriceHistory cur /\
     priceHistory (settle render cur op) = priceHistory cur).
Proof.
  destruct op as [[?|?]|? [?|?]| | |[[]|?]];
    settled; simpl; (split; [|split]); intros H; try discriminate H;
    try reflexivity; split; reflexivity.
Qed.

(** What a handler leaves in the log, whatever the backend answers: one
    request for a load, a selection and a submission (none is repeated
    after a failure), no request for a close and an edit; one alert for a
    submission and no alert otherwise; one console error for a failed
    load or selection and none otherwise; and preventDefault first, for
    a submission only. *)
Theorem effects_per_operation (render : UIState) (op : Op) :
  length (filter is_request (trace render op)) =
    (if awaits op then 1 else 0) /\
  length (filter is_alert (trace render op)) =
    (if is_submit op then 1 else 0) /\
  length (filter is_console_error (trace render op)) =
    (if andb (failed op) (negb (is_submit op)) then 1 else 0) /\
  (is_submit op = true -> hd_error (trace render op) = Some PreventDefault) /\
  (is_submit op = false -> ~ In PreventDefault (trace render op)).
Proof.
  destruct op as [[?|?]|? [?|?]| | |[[]|?]];
    (split; [reflexivity|]); (split; [reflexivity|]); (split; [reflexivity|]);
    split; intros H; try discriminate H; try reflexivity;
    unfold trace; simpl; intuition discriminate.
Qed.

Lemma run_cons (op : Op) (ops : list Op) (s : UIState) :
  run (op :: ops) s = run ops (step s op).
Proof. reflexivity. Qed.

(** As long as no load is accepted, the list only grows at its end, by
    one entry for each accepted submission: the list after a sequence of
    operations is the list before it followed by as many entries as the
    sequence has accepted submissions. *)
Theorem list_grows_between_loads (ops : list Op) (s : UIState) :
  forallb (fun op => negb (load_ok op)) ops = true ->
  exists added,
    searchTexts (run ops s) = (searchTexts s ++ added)%list /\
    length added = length (filter submit_ok ops).
Proof.
  revert s. induction ops as [|op ops IH]; intros s Hno.
  - exists []. split; [symmetry; apply app_nil_r | reflexivity].
  - simpl in Hno. apply Bool.andb_true_iff in Hno as [Hop Hrest].
    rewrite run_cons.
    destruct (IH (step s op) Hrest) as (added & Hl & Hn).
    rewrite Hl. unfold step.
    destruct op as [[?|?]|? [?|?]| | |[[]|?]]; try discriminate Hop;
      settled; simpl;
      try (exists added; split; [reflexivity | exact Hn]).
    exists (newSearchText s :: added). split.
    + rewrite <- app_assoc. reflexivity.
    + simpl. rewrite Hn. reflexivity.
Qed.

(** The history panel and the search form do not interfere: an operation
    of the panel (a selection, accepted or not, or a close) and one of
    the form or the list (a load, an edit, a submission) give the same
    state in both orders. *)
Theorem panel_and_form_commute (s : UIState) (a b : Op) :
  panel_op a = true ->
  panel_op b = false ->
  step (step s a) b = step (step s b) a.
Proof.
  intros Ha Hb. unfold step.
  destruct a as [[?|?]|? [?|?]| | |[[]|?]]; try discriminate Ha;
    destruct b as [[?|?]|? [?|?]| | |[[]|?]]; try discriminate Hb;
    settled; reflexivity.
Qed.

(** ** With requests in flight *)

Lemma async_run_snoc (evs : list Event) (ev : Event) (p : Page) :
  async_run (evs ++ [ev]) p = async_step (async_run evs p) ev.
Proof. unfold async_run. rewrite fold_left_app. reflexivity. Qed.

Lemma async_run_app (evs1 evs2 : list Event) (p : Page) :
  async_run (evs1 ++ evs2) p = async_run evs2 (async_run evs1 p).
Proof. unfold async_run. apply fold_left_app. Qed.

(** The invariant of the panel is kept by a handler of any render. *)
Lemma history_inv_settle (ops : list Op) (op : Op) (render s : UIState) :
  history_inv ops s -> history_inv (ops ++ [op]) (settle render s op).
Proof.
  intros [Hc Ho]. unfold history_inv.
  rewrite latest_fetch_snoc.
  destruct op as [[?|?]|? [?|?]| | |[[]|?]]; simpl fetched;
    settled; simpl; split; intros H; try discriminate; try reflexivity; auto.
Qed.

Lemma history_inv_async_step (p : Page) (ev : Event) :
  history_inv (landed p) (ui p) ->
  history_inv (landed (async_step p ev)) (ui (async_step p ev)).
Proof.
  intros H. destruct ev as [op|i]; simpl.
  - destruct (awaits op); simpl; [exact H|].
    apply history_inv_settle, H.
  - destruct (nth_error (inflight p) i) as [k|]; simpl; [|exact H].
    apply history_inv_settle, H.
Qed.

Lemma history_inv_async_run (evs : list Event) :
  history_inv (landed (async_run evs mounted)) (ui (async_run evs mounted)).
Proof.
  induction evs as [|ev evs IH] using rev_ind.
  - exact history_inv_initial.
  - rewrite async_run_snoc. apply history_inv_async_step, IH.
Qed.

(** Whatever the order in which events fire and answers land, a closed
    panel holds no history and an open panel holds the payload of the
    accepted history fetch that landed last (not the one that was
    started last). *)
Theorem interleaving_history_invariant (evs : list Event) :
  let p := async_run evs mounted in
  (showPriceHistory (ui p) = false -> priceHistory (ui p) = []) /\
  (showPriceHistory (ui p) = true ->
     latest_fetch (landed p) = Some (priceHistory (ui p))).
Proof. exact (history_inv_async_run evs). Qed.

Lemma same_but_list_settle (render cur s : UIState) (op : Op) :
  same_but_list cur s -> same_but_list (settle render cur op) (step s op).
Proof.
  intros (H1 & H2 & H3). unfold same_but_list, step.
  destruct op as [[?|?]|? [?|?]| | |[[]|?]]; settled; simpl; auto.
Qed.

(** Whatever the order in which events fire and answers land, the panel
    fields and the input are those of the operations done one by one in
    the order in which they landed.  (The list is not: the submit
    handler reads it from its closure.) *)
Theorem interleaving_serializes_panel_and_input (evs : list Event) :
  let p := async_run evs mounted in
  let s := run (landed p) initial in
  showPriceHistory (ui p) = showPriceHistory s /\
  priceHistory (ui p) = priceHistory s /\
  newSearchText (ui p) = newSearchText s.
Proof.
  simpl. change (same_but_list (ui (async_run evs mounted))
                   (run (landed (async_run evs mounted)) initial)).
  induction evs as [|ev evs IH] using rev_ind.
  - repeat split.
  - rewrite async_run_snoc. set (p := async_run evs mounted) in *.
    destruct ev as [op|i]; simpl.
    + destruct (awaits op); simpl; [exact IH|].
      rewrite run_snoc. apply same_but_list_settle, IH.
    + destruct (nth_error (inflight p) i) as [k|]; simpl; [|exact IH].
      rewrite run_snoc. apply same_but_list_settle, IH.
Qed.

(** Opening the panel and closing it again gives back the state the page
    was in, from every state the page reaches with the panel closed. *)
Theorem open_close_round_trip (evs : list Event) (term : string)
    (data : list Entry) :
  let s := ui (async_run evs mounted) in
  showPriceHistory s = false ->
  step (step s (SelectSearchTerm term (Resolved data))) ClosePriceHistory = s.
Proof.
  simpl. destruct (history_inv_async_run evs) as [Hc _].
  destruct (ui (async_run evs mounted)) as [sh ph st nt]. simpl in *.
  intros ->. rewrite (Hc eq_refl). reflexivity.
Qed.

Lemma spared_stays (n : nat) (k : Suspended) (between : list Event) (p : Page) :
  nth_error (inflight p) n = Some k ->
  forallb (spares n) between = true ->
  nth_error (inflight (async_run between p)) n = Some k.
Proof.
  revert p. induction between as [|ev evs IH]; intros p Hk Hsp.
  - exact Hk.
  - simpl in Hsp. apply Bool.andb_true_iff in Hsp as [Hev Hrest].
    apply IH; [|exact Hrest].
    assert (Hn : n < length (inflight p)).
    { apply nth_error_Some. rewrite Hk. discriminate. }
    destruct ev as [op|i]; simpl.
    + destruct (awaits op); simpl; [|exact Hk].
      rewrite nth_error_app1 by exact Hn. exact Hk.
    + simpl in Hev. apply Nat.ltb_lt in Hev.
      destruct (nth_error (inflight p) i) as [k'|] eqn:Hi; simpl; [|exact Hk].
      assert (Hil : i < length (inflight p)).
      { apply nth_error_Some. rewrite Hi. discriminate. }
      rewrite nth_error_app1 by (rewrite length_firstn; lia).
      rewrite nth_error_firstn.
      apply Nat.ltb_lt in Hev. rewrite Hev. exact Hk.
Qed.

(** A submission closes over the render in which it fired.  When it is
    accepted, the list becomes the list of that render followed by the
    text of that render, and the input becomes empty, whatever fired or
    landed while it was in flight: a list that a load brought in the
    meantime, the entries of other submissions and the text typed in the
    meantime are overwritten. *)
Theorem stale_closure_overwrites (p : Page) (u : unit) (between : list Event) :
  forallb (spares (length (inflight p))) between = true ->
  let q := async_run
             (Fire (SubmitNewSearchText (Resolved u))
              :: between ++ [Land (length (inflight p))]) p in
  searchTexts (ui q) = (searchTexts (ui p) ++ [newSearchText (ui p)])%list /\
  newSearchText (ui q) = "".
Proof.
  intros Hsp q.
  set (k := {| closure := ui p; waiting := SubmitNewSearchText (Resolved u) |}).
  set (p1 := async_step p (Fire (SubmitNewSearchText (Resolved u)))).
  assert (H1 : nth_error (inflight p1) (length (inflight p)) = Some k).
  { unfold p1. simpl. rewrite nth_error_app2 by lia.
    rewrite Nat.sub_diag. reflexivity. }
  pose proof (spared_stays _ _ between p1 H1 Hsp) as H2.
  assert (Hq : q = async_step (async_run between p1) (Land (length (inflight p)))).
  { unfold q, p1. rewrite <- async_run_snoc. reflexivity. }
  rewrite Hq. cbn [async_step]. rewrite H2. split; reflexivity.
Qed.

(** An accepted entry can be lost.  Two submissions fired before either
    answer lands close over the same list: when the first lands its
    text is listed, and when the second lands the list is the old list
    followed by the second text only, though both were accepted. *)
Theorem lost_entry (s : UIState) (b : string) (u1 u2 : unit) :
  let fired := [Fire (SubmitNewSearchText (Resolved u1));
                Fire (EditNewSearchText b);
                Fire (SubmitNewSearchText (Resolved u2))] in
  searchTexts (ui (async_run (fired ++ [Land 0]) (at_rest s))) =
    (searchTexts s ++ [newSearchText s])%list /\
  searchTexts (ui (async_run (fired ++ [Land 0; Land 0]) (at_rest s))) =
    (searchTexts s ++ [b])%list /\
  inflight (async_run (fired ++ [Land 0; Land 0]) (at_rest s)) = [] /\
  length (filter submit_ok
            (landed (async_run (fired ++ [Land 0; Land 0]) (at_rest s)))) = 2.
Proof. destruct u1, u2. repeat split. Qed.

(** The load of the mount and a first submission race.  When the load
    lands first and the submission after it, the list the server sent is
    dropped and only the new text is listed; when the submission lands
    first and the load after it, the list is the server's, with or
    without the new text. *)
Theorem mount_race (data : list string) (t : string) (u : unit) :
  let fired := [mount (Resolved data);
                Fire (EditNewSearchText t);
                Fire (SubmitNewSearchText (Resolved u))] in
  searchTexts (ui (async_run (fired ++ [Land 0; Land 0]) mounted)) = [t] /\
  searchTexts (ui (async_run (fired ++ [Land 1; Land 0]) mounted)) = data.
Proof. destruct u. split; reflexivity. Qed.

Lemma serial_from (ops : list Op) (p : Page) :
  inflight p = [] ->
  async_run (serial ops) p =
  {| ui := run ops (ui p); inflight := []; landed := landed p ++ ops |}.
Proof.
  revert p. induction ops as [|op ops IH]; intros [s fl ld] Hfl;
    simpl in Hfl; subst fl.
  - simpl. rewrite app_nil_r. reflexivity.
  - unfold serial. cbn [flat_map]. fold (serial ops).
    rewrite async_run_app, run_cons.
    assert (E : async_run (if awaits op then [Fire op; Land 0] else [Fire op])
                  {| ui := s; inflight := []; landed := ld |} =
                {| ui := step s op; inflight := []; landed := ld ++ [op] |}).
    { destruct op; reflexivity. }
    rewrite E, IH by reflexivity. simpl.
    rewrite <- app_assoc. reflexivity.
Qed.


(** ** What is rendered *)

Lemma view_injective (s1 s2 : UIState) :
  (showPriceHistory s1 = false -> priceHistory s1 = []) ->
  (showPriceHistory s2 = false -> priceHistory s2 = []) ->
  view s1 = view s2 -> s1 = s2.
Proof.
  destruct s1 as [sh1 ph1 st1 nt1], s2 as [sh2 ph2 st2 nt2].
  unfold view. simpl. intros H1 H2 Hv.
  destruct sh1, sh2; simpl in Hv; try discriminate Hv.
  - injection Hv as -> -> ->. reflexivity.
  - injection Hv as -> ->. rewrite (H1 eq_refl), (H2 eq_refl). reflexivity.
Qed.


End SearchPage.

Arguments UIState Entry : clear implicits.
Arguments Update Entry : clear implicits.
Arguments Op Entry : clear implicits.
Arguments Suspended Entry : clear implicits.
Arguments Page Entry : clear implicits.
Arguments Event Entry : clear implicits.
Arguments Element Entry : clear implicits.

(** ** A concrete page *)

(** One row of the price history table, as in the scenario of the
    specification. *)
Record PricePoint : Type := {
  date : string;
  price : nat
}.

Definition kettle_history : list PricePoint :=
  [{| date := "2024-01-01"; price := 10 |}].

(** The session of the specification: load, open "kettle", close, submit
    "fan" (accepted), submit "mug" (refused). *)
Definition session : list (Op PricePoint) :=
  [LoadSearchTerms (Resolved ["kettle"; "lamp"]);
   SelectSearchTerm "kettle" (Resolved kettle_history);
   ClosePriceHistory;
   EditNewSearchText "fan";
   SubmitNewSearchText (Resolved tt);
   EditNewSearchText "mug";
   SubmitNewSearchText (Rejected (HttpStatus 500))].

Example session_open :
  run (firstn 2 session) initial =
  {| showPriceHistory := true; priceHistory := kettle_history;
     searchTexts := ["kettle"; "lamp"]; newSearchText := "" |}.
Proof. reflexivity. Qed.

Example session_end :
  run session initial =
  {| showPriceHistory := false; priceHistory := [];
     searchTexts := ["kettle"; "lamp"; "fan"]; newSearchText := "mug" |}.
Proof. reflexivity. Qed.

(** The state of [submit_no_dedup_witness]: "fan" is listed and typed
    again. *)
Definition fan_listed : UIState PricePoint :=
  {| showPriceHistory := false; priceHistory := [];
     searchTexts := ["kettle"; "fan"]; newSearchText := "fan" |}.

Lemma submit_no_dedup_witness :
  searchTexts (step fan_listed (SubmitNewSearchText (Resolved tt))) =
    ["kettle"; "fan"; "fan"] /\
  2 <= count_occ string_dec
         (searchTexts (step fan_listed (SubmitNewSearchText (Resolved tt)))) "fan".
Proof.
  destruct (submit_no_dedup fan_listed "fan" tt) as (H1 & _ & H3 & _).
  - simpl. right. left. reflexivity.
  - reflexivity.
  - split; [exact H1 | exact H3].
Defined.

(** ** Instances of the properties that have a precondition *)

(** Operations on [fan_listed] with no accepted load: two accepted
    submissions, a failed selection and a failed load among them. *)
Definition no_load_session : list (Op PricePoint) :=
  [SubmitNewSearchText (Resolved tt);
   SelectSearchTerm "fan" (Rejected NetworkError);
   EditNewSearchText "mug";
   LoadSearchTerms (Rejected (HttpStatus 503));
   SubmitNewSearchText (Resolved tt)].

Lemma list_grows_between_loads_witness :
  exists added,
    searchTexts (run no_load_session fan_listed) =
      (["kettle"; "fan"] ++ added)%list /\
    length added = 2.
Proof.
  apply (list_grows_between_loads no_load_session fan_listed).
  reflexivity.
Defined.

Lemma panel_and_form_commute_witness :
  step (step fan_listed (SelectSearchTerm "fan" (Resolved kettle_history)))
       (SubmitNewSearchText (Resolved tt)) =
  step (step fan_listed (SubmitNewSearchText (Resolved tt)))
       (SelectSearchTerm "fan" (Resolved kettle_history)).
Proof.
  apply (panel_and_form_commute fan_listed); reflexivity.
Defined.

(** The mount, with the answer of the backend landed. *)
Definition loaded : list (Event PricePoint) :=
  [mount (Resolved ["kettle"; "lamp"]); Land 0].

Lemma open_close_round_trip_witness :
  step (step (ui (async_run loaded mounted))
          (SelectSearchTerm "kettle" (Resolved kettle_history)))
       ClosePriceHistory =
  ui (async_run loaded mounted).
Proof.
  apply (open_close_round_trip loaded "kettle" kettle_history).
  reflexivity.
Defined.

(** While the submission of "fan" is in flight, a load is fired and
    lands, and the user types "mug". *)
Definition meanwhile : list (Event PricePoint) :=
  [Fire (LoadSearchTerms (Resolved ["lamp"]));
   Fire (EditNewSearchText "mug");
   Land 1].

Lemma stale_closure_overwrites_witness :
  let q := async_run
             (Fire (SubmitNewSearchText (Resolved tt)) :: meanwhile ++ [Land 0])
             (at_rest fan_listed) in
  searchTexts (ui q) = ["kettle"; "fan"; "fan"] /\ newSearchText (ui q) = "".
Proof.
  apply (stale_closure_overwrites (at_rest fan_listed) tt meanwhile).
  reflexivity.
Defined.

(** Typing a text and erasing it again. *)
Definition typed_and_erased : list (Event PricePoint) :=
  [Fire (EditNewSearchText "fan"); Fire (EditNewSearchText "")].

